(** * zemen: Gregorian / Julian Day Number / Ethiopian calendar conversions

    A shallow embedding of [src/zemen/converters.py] together with the part of
    Python's [datetime.date] that the module calls (the constructor with its
    range checks, [toordinal] and [fromordinal]), followed by the properties
    of the converters.

    Python integers are unbounded, so they are modelled by [Z]; Python's [//]
    and [%] round towards minus infinity, which for the positive divisors used
    here is exactly [Z.div] and [Z.modulo]. *)

From Stdlib Require Import ZArith List Bool String Lia DecimalString.
Import ListNotations.
Local Open Scope Z_scope.

(** ** Exceptions and results *)

Module Py.

(** The built-in exception classes that matter for this module. *)
Inductive exn_class : Type :=
| ValueError
| TypeError
| OverflowError
| AssertionError.

Definition exn_class_eqb (a b : exn_class) : bool :=
  match a, b with
  | ValueError, ValueError => true
  | TypeError, TypeError => true
  | OverflowError, OverflowError => true
  | AssertionError, AssertionError => true
  | _, _ => false
  end.

(** A raised exception: its class and its message. *)
Record exn : Type := mkExn { exc_class : exn_class; exc_msg : string }.

(** The outcome of a call: a returned value or a raised exception. *)
Inductive result (A : Type) : Type :=
| Return (a : A)
| Raise (e : exn).
Arguments Return {A} a.
Arguments Raise {A} e.

Definition bind {A B : Type} (c : result A) (k : A -> result B) : result B :=
  match c with
  | Return a => k a
  | Raise e => Raise e
  end.

(** [try: body except cls: handler]: an exception of class [cls] raised by the
    body runs the handler, any other exception propagates. *)
Definition try_except {A : Type} (body : result A) (cls : exn_class)
    (handler : exn -> result A) : result A :=
  match body with
  | Return a => Return a
  | Raise e => if exn_class_eqb (exc_class e) cls then handler e else Raise e
  end.

(** [True] counts as 1 and [False] as 0 in arithmetic. *)
Definition int_of_bool (b : bool) : Z := if b then 1 else 0.

(** [l[i]] for an index inside the list. *)
Definition index (l : list Z) (i : Z) : Z := nth (Z.to_nat i) l 0.

(** ['%d' % z]. *)
Definition fmt_d (z : Z) : string := NilZero.string_of_int (Z.to_int z).

End Py.

Import Py.

Declare Scope py_scope.
Delimit Scope py_scope with py.
Notation "x <- c ;; k" := (bind c (fun x => k))
  (at level 61, c at next level, right associativity) : py_scope.
Notation "' pat <- c ;; k" := (bind c (fun x => match x with pat => k end))
  (at level 61, pat pattern, c at next level, right associativity) : py_scope.
Local Open Scope py_scope.

(** ** The model of [datetime.date]

    It follows the reference implementation of the [datetime] module, which
    is written in Python: the proleptic Gregorian ordinal, where day 1 is
    0001-01-01, and the range checks of the constructor, which accepts the
    years [MINYEAR..MAXYEAR] and raises [ValueError] otherwise.  (The C
    version of the module has the same ranges and results; it words its
    messages differently and reports an argument that does not fit a C int
    as [OverflowError].  The theorems below do not depend on the text of a
    library message, and what they say of the class of an exception is
    said of arguments that fit a C int.) *)

Module datetime.

Definition MINYEAR : Z := 1.
Definition MAXYEAR : Z := 9999.

Definition _DAYS_IN_MONTH : list Z :=
  [-1; 31; 28; 31; 30; 31; 30; 31; 31; 30; 31; 30; 31].

(** The table is built by a loop that accumulates the month lengths. *)
Definition _DAYS_BEFORE_MONTH : list Z :=
  fst (fold_left (fun (st : list Z * Z) (dim : Z) =>
                    (fst st ++ [snd st], snd st + dim))
                 (tl _DAYS_IN_MONTH) ([-1], 0)).

Definition _is_leap (year : Z) : bool :=
  (year mod 4 =? 0) && (negb (year mod 100 =? 0) || (year mod 400 =? 0)).

Definition _days_before_year (year : Z) : Z :=
  let y := year - 1 in
  y * 365 + y / 4 - y / 100 + y / 400.

(** Called with [1 <= month <= 12] only (an assertion in the original). *)
Definition _days_in_month (year month : Z) : Z :=
  if (month =? 2) && _is_leap year then 29 else index _DAYS_IN_MONTH month.

(** Called with [1 <= month <= 12] only (an assertion in the original). *)
Definition _days_before_month (year month : Z) : Z :=
  index _DAYS_BEFORE_MONTH month + int_of_bool ((month >? 2) && _is_leap year).

Definition _ymd2ord (year month day : Z) : Z :=
  _days_before_year year + _days_before_month year month + day.

Definition _DI400Y : Z := _days_before_year 401.
Definition _DI100Y : Z := _days_before_year 101.
Definition _DI4Y : Z := _days_before_year 5.

Definition _ord2ymd (n : Z) : Z * Z * Z :=
  let n := n - 1 in
  let n400 := n / _DI400Y in
  let n := n mod _DI400Y in
  let year := n400 * 400 + 1 in
  let n100 := n / _DI100Y in
  let n := n mod _DI100Y in
  let n4 := n / _DI4Y in
  let n := n mod _DI4Y in
  let n1 := n / 365 in
  let n := n mod 365 in
  let year := year + (n100 * 100 + n4 * 4 + n1) in
  if (n1 =? 4) || (n100 =? 4) then (year - 1, 12, 31)
  else
    let leapyear := (n1 =? 3) && (negb (n4 =? 24) || (n100 =? 3)) in
    let month := Z.shiftr (n + 50) 5 in
    let preceding :=
      index _DAYS_BEFORE_MONTH month + int_of_bool ((month >? 2) && leapyear) in
    let mp :=
      if preceding >? n
      then (month - 1,
            preceding - (index _DAYS_IN_MONTH (month - 1)
                         + int_of_bool ((month - 1 =? 2) && leapyear)))
      else (month, preceding) in
    let month := fst mp in
    let preceding := snd mp in
    let n := n - preceding in
    (year, month, n + 1).

(** A [date] object. *)
Record date : Type := mkdate { _year : Z; _month : Z; _day : Z }.

Definition _check_date_fields (year month day : Z) : result (Z * Z * Z) :=
  if negb ((MINYEAR <=? year) && (year <=? MAXYEAR)) then
    Raise (mkExn ValueError
             ("year must be in " ++ fmt_d MINYEAR ++ ".." ++ fmt_d MAXYEAR))
  else if negb ((1 <=? month) && (month <=? 12)) then
    Raise (mkExn ValueError "month must be in 1..12")
  else
    let dim := _days_in_month year month in
    if negb ((1 <=? day) && (day <=? dim)) then
      Raise (mkExn ValueError ("day must be in 1.." ++ fmt_d dim))
    else Return (year, month, day).

(** [date(year, month, day)]. *)
Definition new (year month day : Z) : result date :=
  '(y, m, d) <- _check_date_fields year month day ;;
  Return (mkdate y m d).

(** [self.toordinal()]. *)
Definition toordinal (self : date) : Z :=
  _ymd2ord (_year self) (_month self) (_day self).

(** [date.fromordinal(n)]. *)
Definition fromordinal (n : Z) : result date :=
  let '(y, m, d) := _ord2ymd n in
  new y m d.

End datetime.

(** ** The converters of [src/zemen/converters.py] *)

Module converters.

Import datetime.

Definition _greg_to_jdn (year month day : Z) : result Z :=
  _ <- try_except (new year month day) ValueError
         (fun _ => Raise (mkExn ValueError "Invalid date for Gregorian calendar")) ;;
  d <- new year month day ;;
  Return (toordinal d + 1721425).

Definition jdn_to_greg (jdn : Z) : result date :=
  if jdn <? 1721425 then
    Raise (mkExn ValueError "Invalid Julian Day Number")
  else fromordinal (jdn - 1721425).

Definition _eth_from_jdn (jdn : Z) : result (Z * Z * Z) :=
  let JDN_ETH_OFFSET := 1723856 in
  if jdn <? 1721425 then
    Raise (mkExn ValueError "Invalid Julian Day Number")
  else
    let r := (jdn - JDN_ETH_OFFSET) mod 1461 in
    let n := (r mod 365) + (365 * (r / 1460)) in
    let year := 4 * ((jdn - JDN_ETH_OFFSET) / 1461) + (r / 365) - (r / 1460) in
    let month := n / 30 + 1 in
    let day := n mod 30 + 2 in
    Return (year, month, day).

Definition eth_from_greg (year month day : Z) : result (Z * Z * Z) :=
  jdn <- _greg_to_jdn year month day ;;
  _eth_from_jdn jdn.

(** The body of [eth_to_greg] is its docstring alone: a call evaluates no
    statement and falls off the end of the function, which yields [None]. *)
Definition eth_to_greg (year month day : Z) : result (option (Z * Z * Z)) :=
  Return None.

End converters.

Import datetime converters.

(** ** Auxiliary definitions used by the proofs *)

(** The month length and the days before a month as functions of the leap
    status of the year, which is all they depend on. *)
Definition dim_of (leap : bool) (m : Z) : Z :=
  if (m =? 2) && leap then 29 else index _DAYS_IN_MONTH m.

Definition dbm_of (leap : bool) (m : Z) : Z :=
  index _DAYS_BEFORE_MONTH m + int_of_bool ((m >? 2) && leap).

(** The last part of [_ord2ymd]: month and day from the zero-based day of
    the year. *)
Definition md_of_doy (leapyear : bool) (n : Z) : Z * Z :=
  let month := Z.shiftr (n + 50) 5 in
  let preceding :=
    index _DAYS_BEFORE_MONTH month + int_of_bool ((month >? 2) && leapyear) in
  let mp :=
    if preceding >? n
    then (month - 1,
          preceding - (index _DAYS_IN_MONTH (month - 1)
                       + int_of_bool ((month - 1 =? 2) && leapyear)))
    else (month, preceding) in
  (fst mp, n - snd mp + 1).

Definition doy_ok (leap : bool) (n : Z) : bool :=
  let m := fst (md_of_doy leap n) in
  let d := snd (md_of_doy leap n) in
  (1 <=? m) && (m <=? 12) && (1 <=? d) && (d <=? dim_of leap m)
  && (dbm_of leap m + d =? n + 1).

(** [_ord2ymd] on the quotients and the last remainder of its four
    divisions. *)
Definition ymd_of_digits (a b c e r : Z) : Z * Z * Z :=
  let year := a * 400 + 1 + (b * 100 + c * 4 + e) in
  if (e =? 4) || (b =? 4) then (year - 1, 12, 31)
  else
    let leapyear := (e =? 3) && (negb (c =? 24) || (b =? 3)) in
    (year, fst (md_of_doy leapyear r), snd (md_of_doy leapyear r)).

(** The dates of the proleptic Gregorian calendar as the data model of the
    specification describes them: months 1 to 12, the usual month lengths,
    and a leap year when the year is divisible by 4 and not by 100 unless
    by 400. *)
Definition gregorian_leap (year : Z) : bool :=
  (year mod 4 =? 0) && (negb (year mod 100 =? 0) || (year mod 400 =? 0)).

Definition gregorian_month_days (year month : Z) : Z :=
  if month =? 2 then (if gregorian_leap year then 29 else 28)
  else if (month =? 4) || (month =? 6) || (month =? 9) || (month =? 11)
       then 30 else 31.

Definition gregorian_valid (year month day : Z) : bool :=
  (1 <=? month) && (month <=? 12)
  && (1 <=? day) && (day <=? gregorian_month_days year month).

(** The two exceptions that the converters raise themselves.  The module
    defines no exception class of its own: what the specification calls
    InvalidDateError and InvalidJdnError are these two [ValueError]s, which
    differ by their message. *)
Definition exn_invalid_date : exn :=
  mkExn ValueError "Invalid date for Gregorian calendar".

Definition exn_invalid_jdn : exn :=
  mkExn ValueError "Invalid Julian Day Number".

(** The integers that fit a C int, on which the C version and the Python
    version of [datetime] raise the same exceptions. *)
Definition fits_int (z : Z) : Prop := -2147483648 <= z <= 2147483647.

(** What the specification says of [gregorian_to_ethiopian]: call
    [gregorian_to_jdn], and on success call [jdn_to_ethiopian] on the result;
    an error of the first call is the error of the whole. *)
Definition gregorian_to_ethiopian_spec (y m d : Z) : result (Z * Z * Z) :=
  match _greg_to_jdn y m d with
  | Raise e => Raise e
  | Return jdn => _eth_from_jdn jdn
  end.

(** The order of dates: by year, then month, then day. *)
Definition ymd_lt (y m d y' m' d' : Z) : Prop :=
  y < y' \/ (y = y' /\ (m < m' \/ (m = m' /\ d < d'))).

(** The triples that [_eth_from_jdn] produces: in the months 1 to 12 the days
    2 to 31; in month 13 the days 2 to 6, and also 7 when the year leaves
    remainder 3 modulo 4. *)
Definition eth_triple (y m d : Z) : Prop :=
  (1 <= m <= 12 /\ 2 <= d <= 31)
  \/ (m = 13 /\ 2 <= d <= 6 + int_of_bool (y mod 4 =? 3)).

(** The day number that the arithmetic of [_eth_from_jdn] gives to a triple:
    365 days a year, one more for every fourth year, 30 days a month, days
    counted from 2, all from the offset 1723856. *)
Definition eth_triple_jdn (y m d : Z) : Z :=
  1723856 + 365 * y + y / 4 + 30 * (m - 1) + (d - 2).

(** The triple after (y, m, d) among those of [eth_triple]. *)
Definition eth_next (y m d : Z) : Z * Z * Z :=
  if m <? 13 then
    if d <? 31 then (y, m, d + 1) else (y, m + 1, 2)
  else
    if d <? 6 + int_of_bool (y mod 4 =? 3) then (y, m, d + 1)
    else (y + 1, 1, 2).

(** The day after a Gregorian date. *)
Definition greg_next (y m d : Z) : Z * Z * Z :=
  if gregorian_valid y m (d + 1) then (y, m, d + 1)
  else if m <? 12 then (y, m + 1, 1)
  else (y + 1, 1, 1).

(** The date object with the fields of a triple. *)
Definition date_of_triple (t : Z * Z * Z) : date :=
  mkdate (fst (fst t)) (snd (fst t)) (snd t).

(** Whether [eth_from_greg] returns (y - 7, 1, 2) for September 11 of the
    Gregorian year y, or for September 12 when y mod 4 = 3. *)
Definition new_year_ok (y : Z) : bool :=
  match eth_from_greg y 9 (11 + int_of_bool (y mod 4 =? 3)) with
  | Return (ey, em, ed) => (ey =? y - 7) && (em =? 1) && (ed =? 2)
  | Raise _ => false
  end.

(** The integers [lo, lo+1, ..., lo+len-1]. *)
Definition zrange (lo : Z) (len : nat) : list Z :=
  map (fun i => lo + Z.of_nat i) (seq 0 len).

(** ** Arithmetic of the proleptic Gregorian ordinal *)

Ltac Zify.zify_post_hook ::= Z.div_mod_to_equations.

Lemma zrange_forallb (f : Z -> bool) (lo : Z) (len : nat) :
  forallb f (zrange lo len) = true ->
  forall k, lo <= k < lo + Z.of_nat len -> f k = true.
Proof.
  intros H k Hk.
  rewrite forallb_forall in H. apply H.
  unfold zrange. apply in_map_iff.
  exists (Z.to_nat (k - lo)). split; [lia|].
  apply in_seq. lia.
Qed.

Lemma doy_ok_all (leap : bool) (n : Z) :
  0 <= n < 365 + int_of_bool leap -> doy_ok leap n = true.
Proof.
  intros H.
  destruct leap; cbn [int_of_bool] in H.
  - apply (zrange_forallb (doy_ok true) 0 366); [vm_compute; reflexivity | lia].
  - apply (zrange_forallb (doy_ok false) 0 365); [vm_compute; reflexivity | lia].
Qed.

Lemma days_before_year_digits (a b c e : Z) :
  0 <= b <= 3 -> 0 <= c <= 24 -> 0 <= e <= 3 ->
  _days_before_year (400 * a + 100 * b + 4 * c + e + 1)
  = 146097 * a + 36524 * b + 1461 * c + 365 * e.
Proof.
  intros Hb Hc He. unfold _days_before_year. cbv zeta. lia.
Qed.

Lemma is_leap_digits (a b c e : Z) :
  0 <= b <= 3 -> 0 <= c <= 24 -> 0 <= e <= 3 ->
  _is_leap (400 * a + 100 * b + 4 * c + e + 1)
  = (e =? 3) && (negb (c =? 24) || (b =? 3)).
Proof.
  intros Hb Hc He. unfold _is_leap.
  destruct (Z.eqb_spec e 3), (Z.eqb_spec c 24), (Z.eqb_spec b 3);
    cbn [andb orb negb];
    repeat match goal with
           | |- context [?x =? ?y] => destruct (Z.eqb_spec x y)
           end; cbn [andb orb negb]; try reflexivity; exfalso; lia.
Qed.

Lemma days_in_month_leap (y m : Z) :
  _days_in_month y m = dim_of (_is_leap y) m.
Proof. unfold _days_in_month, dim_of. reflexivity. Qed.

Lemma days_before_month_leap (y m : Z) :
  _days_before_month y m = dbm_of (_is_leap y) m.
Proof. unfold _days_before_month, dbm_of. reflexivity. Qed.

(** The four divisions of [_ord2ymd] write [n - 1] in the mixed radix of
    400-year, 100-year, 4-year and 1-year blocks. *)
Lemma ord2ymd_digits (n : Z) :
  exists a b c e r,
    n - 1 = 146097 * a + 36524 * b + 1461 * c + 365 * e + r
    /\ 0 <= 36524 * b + 1461 * c + 365 * e + r < 146097
    /\ 0 <= 1461 * c + 365 * e + r < 36524
    /\ 0 <= 365 * e + r < 1461
    /\ 0 <= b <= 4 /\ 0 <= c <= 24 /\ 0 <= e <= 4 /\ 0 <= r < 365
    /\ _ord2ymd n = ymd_of_digits a b c e r.
Proof.
  exists ((n - 1) / 146097), ((n - 1) mod 146097 / 36524),
    ((n - 1) mod 146097 mod 36524 / 1461),
    ((n - 1) mod 146097 mod 36524 mod 1461 / 365),
    ((n - 1) mod 146097 mod 36524 mod 1461 mod 365).
  repeat (split; [lia|]). reflexivity.
Qed.

Lemma ymd_of_digits_sound (a b c e r y m d : Z) :
  0 <= 36524 * b + 1461 * c + 365 * e + r < 146097 ->
  0 <= 1461 * c + 365 * e + r < 36524 ->
  0 <= 365 * e + r < 1461 ->
  0 <= b <= 4 -> 0 <= c <= 24 -> 0 <= e <= 4 -> 0 <= r < 365 ->
  ymd_of_digits a b c e r = (y, m, d) ->
  1 <= m <= 12 /\ 1 <= d <= _days_in_month y m
  /\ _ymd2ord y m d = 146097 * a + 36524 * b + 1461 * c + 365 * e + r + 1.
Proof.
  intros B1 B2 B3 Hb Hc He Hr.
  unfold ymd_of_digits. cbv zeta.
  rewrite days_in_month_leap. unfold _ymd2ord.
  rewrite days_before_month_leap.
  destruct (Z.eqb_spec b 4) as [Eb | Nb].
  - (* the last day of a 400-year cycle *)
    rewrite orb_true_r. intros H. injection H as <- <- <-.
    replace (a * 400 + 1 + (b * 100 + c * 4 + e) - 1)
      with (400 * a + 100 * 3 + 4 * 24 + 3 + 1) by lia.
    rewrite days_before_year_digits, is_leap_digits by lia.
    change (dim_of _ 12) with 31. change (dbm_of _ 12) with 335. lia.
  - destruct (Z.eqb_spec e 4) as [Ee | Ne].
    + (* the last day of a leap year *)
      cbn [orb]. intros H. injection H as <- <- <-.
      replace (a * 400 + 1 + (b * 100 + c * 4 + e) - 1)
        with (400 * a + 100 * b + 4 * c + 3 + 1) by lia.
      rewrite days_before_year_digits, is_leap_digits by lia.
      assert (Hc' : c <> 24) by lia.
      destruct (Z.eqb_spec c 24) as [|_]; [contradiction|].
      change (dim_of _ 12) with 31. change (dbm_of _ 12) with 335. lia.
    + cbn [orb].
      set (leap := (e =? 3) && (negb (c =? 24) || (b =? 3))).
      pose proof (doy_ok_all leap r) as Hok.
      assert (Hr' : 0 <= r < 365 + int_of_bool leap)
        by (destruct leap; cbn [int_of_bool]; lia).
      specialize (Hok Hr'). unfold doy_ok in Hok. cbv zeta in Hok.
      set (mm := fst (md_of_doy leap r)) in *.
      set (dd := snd (md_of_doy leap r)) in *.
      clearbody mm dd.
      intros H. injection H as <- <- <-.
      replace (a * 400 + 1 + (b * 100 + c * 4 + e))
        with (400 * a + 100 * b + 4 * c + e + 1) by lia.
      rewrite days_before_year_digits, is_leap_digits by lia.
      fold leap.
      repeat (apply andb_prop in Hok; destruct Hok as [Hok ?]).
      lia.
Qed.

(** [_ord2ymd] returns a month and a day that exist in the returned year, and
    the date whose ordinal is the argument. *)
Lemma ord2ymd_sound (n y m d : Z) :
  _ord2ymd n = (y, m, d) ->
  1 <= m <= 12 /\ 1 <= d <= _days_in_month y m /\ _ymd2ord y m d = n.
Proof.
  intros H.
  destruct (ord2ymd_digits n)
    as (a & b & c & e & r & E & B1 & B2 & B3 & Hb & Hc & He & Hr & Eq).
  rewrite Eq in H.
  destruct (ymd_of_digits_sound a b c e r y m d B1 B2 B3 Hb Hc He Hr H)
    as (Hm & Hd & Ho).
  repeat split; try tauto. lia.
Qed.

Lemma days_before_year_succ (y : Z) :
  _days_before_year (y + 1)
  = _days_before_year y + 365 + int_of_bool (_is_leap y).
Proof.
  unfold _days_before_year, _is_leap. cbv zeta.
  repeat match goal with
         | |- context [?x =? ?z] => destruct (Z.eqb_spec x z)
         end; cbn [andb orb negb int_of_bool]; lia.
Qed.

Lemma days_before_year_mono (y y' : Z) :
  y <= y' -> _days_before_year y <= _days_before_year y'.
Proof. unfold _days_before_year. cbv zeta. lia. Qed.

Lemma month_cases (m : Z) :
  1 <= m <= 12 ->
  m = 1 \/ m = 2 \/ m = 3 \/ m = 4 \/ m = 5 \/ m = 6 \/ m = 7 \/ m = 8
  \/ m = 9 \/ m = 10 \/ m = 11 \/ m = 12.
Proof. lia. Qed.

Ltac month_split H :=
  apply month_cases in H;
  repeat (destruct H as [H | H]); subst.

Lemma day_of_year_bounds (leap : bool) (m d : Z) :
  1 <= m <= 12 -> 1 <= d <= dim_of leap m ->
  1 <= dbm_of leap m + d <= 365 + int_of_bool leap.
Proof.
  intros Hm Hd.
  month_split Hm; destruct leap;
    vm_compute (dim_of _ _) in Hd; vm_compute (dbm_of _ _);
    cbn [int_of_bool]; lia.
Qed.

Lemma ymd2ord_bounds (y m d : Z) :
  1 <= m <= 12 -> 1 <= d <= _days_in_month y m ->
  _days_before_year y < _ymd2ord y m d <= _days_before_year (y + 1).
Proof.
  intros Hm Hd. rewrite days_in_month_leap in Hd.
  unfold _ymd2ord. rewrite days_before_month_leap, days_before_year_succ.
  pose proof (day_of_year_bounds (_is_leap y) m d Hm Hd). lia.
Qed.

Lemma day_of_year_inj (leap : bool) (m d m' d' : Z) :
  1 <= m <= 12 -> 1 <= d <= dim_of leap m ->
  1 <= m' <= 12 -> 1 <= d' <= dim_of leap m' ->
  dbm_of leap m + d = dbm_of leap m' + d' ->
  m = m' /\ d = d'.
Proof.
  intros Hm Hd Hm' Hd'.
  month_split Hm; month_split Hm'; destruct leap;
    vm_compute (dim_of _ _) in Hd; vm_compute (dim_of _ _) in Hd';
    vm_compute (dbm_of _ _); lia.
Qed.

(** Distinct existing dates have distinct ordinals. *)
Lemma ymd2ord_inj (y m d y' m' d' : Z) :
  1 <= m <= 12 -> 1 <= d <= _days_in_month y m ->
  1 <= m' <= 12 -> 1 <= d' <= _days_in_month y' m' ->
  _ymd2ord y m d = _ymd2ord y' m' d' ->
  y = y' /\ m = m' /\ d = d'.
Proof.
  intros Hm Hd Hm' Hd' E.
  pose proof (ymd2ord_bounds y m d Hm Hd) as B.
  pose proof (ymd2ord_bounds y' m' d' Hm' Hd') as B'.
  assert (Hy : y = y').
  { destruct (Z.lt_trichotomy y y') as [L | [L | L]]; [exfalso | exact L | exfalso].
    - pose proof (days_before_year_mono (y + 1) y' ltac:(lia)). lia.
    - pose proof (days_before_year_mono (y' + 1) y ltac:(lia)). lia. }
  subst y'. split; [reflexivity|].
  unfold _ymd2ord in E. rewrite !days_before_month_leap in E.
  rewrite days_in_month_leap in Hd, Hd'.
  apply (day_of_year_inj (_is_leap y)); try assumption. lia.
Qed.

(** [_ord2ymd] inverts [_ymd2ord] on every existing date. *)
Lemma ord2ymd_ymd2ord (y m d : Z) :
  1 <= m <= 12 -> 1 <= d <= _days_in_month y m ->
  _ord2ymd (_ymd2ord y m d) = (y, m, d).
Proof.
  intros Hm Hd.
  destruct (_ord2ymd (_ymd2ord y m d)) as [[y' m'] d'] eqn:E.
  destruct (ord2ymd_sound _ _ _ _ E) as (Hm' & Hd' & Ho).
  destruct (ymd2ord_inj _ _ _ _ _ _ Hm' Hd' Hm Hd Ho) as (-> & -> & ->).
  reflexivity.
Qed.


(** ** The [date] constructor *)

Lemma new_Return_iff (y m d : Z) (dt : date) :
  new y m d = Return dt <->
  dt = mkdate y m d /\ 1 <= y <= 9999 /\ 1 <= m <= 12
  /\ 1 <= d <= _days_in_month y m.
Proof.
  unfold new, _check_date_fields, MINYEAR, MAXYEAR. cbv zeta.
  destruct (Z.leb_spec 1 y), (Z.leb_spec y 9999); cbn [andb negb bind];
    try (split; [discriminate | lia]).
  destruct (Z.leb_spec 1 m), (Z.leb_spec m 12); cbn [andb negb bind];
    try (split; [discriminate | lia]).
  destruct (Z.leb_spec 1 d), (Z.leb_spec d (_days_in_month y m));
    cbn [andb negb bind]; try (split; [discriminate | lia]).
  split.
  - intros E. injection E as <-. repeat split; assumption.
  - intros (-> & _). reflexivity.
Qed.

Lemma new_Raise (y m d : Z) (e : exn) :
  fits_int y -> fits_int m -> fits_int d ->
  new y m d = Raise e -> exc_class e = ValueError.
Proof.
  intros _ _ _. unfold new, _check_date_fields. cbv zeta.
  repeat match goal with
         | |- context [if ?b then _ else _] => destruct b
         end; cbn [bind]; intros E; try discriminate;
    injection E as <-; reflexivity.
Qed.

Lemma new_total (y m d : Z) :
  (exists dt, new y m d = Return dt) \/ (exists e, new y m d = Raise e).
Proof. destruct (new y m d); eauto. Qed.

Lemma gregorian_leap_is_leap (y : Z) : gregorian_leap y = _is_leap y.
Proof. reflexivity. Qed.

Lemma gregorian_month_days_eq (y m : Z) :
  1 <= m <= 12 -> gregorian_month_days y m = _days_in_month y m.
Proof.
  intros Hm. unfold gregorian_month_days. rewrite gregorian_leap_is_leap.
  rewrite days_in_month_leap.
  month_split Hm; destruct (_is_leap y); reflexivity.
Qed.

Lemma gregorian_valid_iff (y m d : Z) :
  gregorian_valid y m d = true <->
  1 <= m <= 12 /\ 1 <= d <= _days_in_month y m.
Proof.
  unfold gregorian_valid.
  destruct (Z.leb_spec 1 m), (Z.leb_spec m 12); cbn [andb];
    try (split; [discriminate | lia]).
  rewrite gregorian_month_days_eq by lia.
  destruct (Z.leb_spec 1 d), (Z.leb_spec d (_days_in_month y m));
    cbn [andb]; split; try discriminate; try lia; reflexivity.
Qed.

(** ** [_greg_to_jdn] and [jdn_to_greg] *)

Lemma greg_to_jdn_Return_iff (y m d jdn : Z) :
  _greg_to_jdn y m d = Return jdn <->
  1 <= y <= 9999 /\ 1 <= m <= 12 /\ 1 <= d <= _days_in_month y m
  /\ jdn = _ymd2ord y m d + 1721425.
Proof.
  unfold _greg_to_jdn.
  destruct (new y m d) as [dt | e] eqn:E.
  - apply new_Return_iff in E. destruct E as (-> & Hy & Hm & Hd).
    cbn [try_except bind toordinal _year _month _day].
    split.
    + intros H. injection H as <-. tauto.
    + intros (_ & _ & _ & ->). reflexivity.
  - cbn [try_except].
    split; [destruct (exn_class_eqb (exc_class e) ValueError); discriminate|].
    intros (Hy & Hm & Hd & _).
    assert (N : new y m d = Return (mkdate y m d))
      by (apply new_Return_iff; tauto).
    congruence.
Qed.

Lemma greg_to_jdn_Raise (y m d : Z) (e : exn) :
  fits_int y -> fits_int m -> fits_int d ->
  _greg_to_jdn y m d = Raise e -> e = exn_invalid_date.
Proof.
  intros Fy Fm Fd. unfold _greg_to_jdn.
  destruct (new y m d) as [dt | e'] eqn:E.
  - cbn [try_except bind]. discriminate.
  - pose proof (new_Raise _ _ _ _ Fy Fm Fd E) as C.
    cbn [try_except]. rewrite C. cbn [exn_class_eqb bind].
    intros H. injection H as <-. reflexivity.
Qed.

Lemma greg_to_jdn_total (y m d : Z) :
  fits_int y -> fits_int m -> fits_int d ->
  (exists jdn, _greg_to_jdn y m d = Return jdn)
  \/ _greg_to_jdn y m d = Raise exn_invalid_date.
Proof.
  intros Fy Fm Fd.
  destruct (_greg_to_jdn y m d) as [j | e] eqn:E; [eauto|].
  right. f_equal. exact (greg_to_jdn_Raise _ _ _ _ Fy Fm Fd E).
Qed.

Lemma days_before_year_1 : _days_before_year 1 = 0.
Proof. reflexivity. Qed.

Lemma days_before_year_10000 : _days_before_year 10000 = 3652059.
Proof. reflexivity. Qed.

(** The ordinals of the years 1 to 9999 are exactly 1 to 3652059. *)
Lemma ymd2ord_range (y m d : Z) :
  1 <= m <= 12 -> 1 <= d <= _days_in_month y m ->
  (1 <= y <= 9999 <-> 1 <= _ymd2ord y m d <= 3652059).
Proof.
  intros Hm Hd.
  pose proof (ymd2ord_bounds y m d Hm Hd) as B.
  pose proof days_before_year_1. pose proof days_before_year_10000.
  split.
  - intros Hy.
    pose proof (days_before_year_mono 1 y ltac:(lia)).
    pose proof (days_before_year_mono (y + 1) 10000 ltac:(lia)). lia.
  - intros Ho. split.
    + destruct (Z_le_gt_dec 1 y) as [|G]; [assumption | exfalso].
      pose proof (days_before_year_mono (y + 1) 1 ltac:(lia)). lia.
    + destruct (Z_le_gt_dec y 9999) as [|G]; [assumption | exfalso].
      pose proof (days_before_year_mono 10000 y ltac:(lia)). lia.
Qed.

Lemma fromordinal_Return_iff (n : Z) (dt : date) :
  fromordinal n = Return dt <->
  1 <= n <= 3652059 /\ 1 <= _month dt <= 12
  /\ 1 <= _day dt <= _days_in_month (_year dt) (_month dt)
  /\ toordinal dt = n.
Proof.
  unfold fromordinal, toordinal.
  destruct (_ord2ymd n) as [[y m] d] eqn:E.
  destruct (ord2ymd_sound _ _ _ _ E) as (Hm & Hd & Ho).
  rewrite new_Return_iff. split.
  - intros (-> & Hy & _ & _). cbn [_year _month _day].
    repeat split; try tauto; try lia;
      apply (ymd2ord_range y m d Hm Hd) in Hy; lia.
  - destruct dt as [y' m' d']. cbn [_year _month _day].
    intros (Hn & Hm' & Hd' & Ho').
    destruct (ymd2ord_inj y m d y' m' d' Hm Hd Hm' Hd' ltac:(lia))
      as (-> & -> & ->).
    repeat split; try tauto; apply (ymd2ord_range y' m' d' Hm Hd); lia.
Qed.

Lemma jdn_to_greg_Return_iff (jdn : Z) (dt : date) :
  jdn_to_greg jdn = Return dt <->
  1721426 <= jdn <= 5373484 /\ 1 <= _month dt <= 12
  /\ 1 <= _day dt <= _days_in_month (_year dt) (_month dt)
  /\ toordinal dt + 1721425 = jdn.
Proof.
  unfold jdn_to_greg.
  destruct (Z.ltb_spec jdn 1721425) as [L | L].
  - split; [discriminate | lia].
  - rewrite fromordinal_Return_iff. split; intros (? & ? & ? & ?);
      repeat split; try tauto; lia.
Qed.

(** [jdn_to_greg] returns a date on every JDN from 1721426 to 5373484. *)
Lemma jdn_to_greg_supported_range (jdn : Z) :
  1721426 <= jdn <= 5373484 -> exists dt, jdn_to_greg jdn = Return dt.
Proof.
  intros H.
  destruct (_ord2ymd (jdn - 1721425)) as [[y m] d] eqn:E.
  destruct (ord2ymd_sound _ _ _ _ E) as (Hm & Hd & Ho).
  exists (mkdate y m d). apply jdn_to_greg_Return_iff.
  unfold toordinal. cbn [_year _month _day].
  repeat split; try tauto; lia.
Qed.

Example greg_to_jdn_first_day : _greg_to_jdn 1 1 1 = Return 1721426.
Proof. reflexivity. Qed.

Example jdn_to_greg_first_day : jdn_to_greg 1721426 = Return (mkdate 1 1 1).
Proof. reflexivity. Qed.

Example jdn_to_greg_last_day :
  jdn_to_greg 5373484 = Return (mkdate 9999 12 31).
Proof. reflexivity. Qed.

(** ** [_eth_from_jdn] *)

(** From the first supported JDN on, [_eth_from_jdn] returns; the month is
    between 1 and 13, the day between 2 and 31, and in month 13 the day is
    between 2 and 7. *)
Lemma eth_from_jdn_ranges (jdn : Z) :
  1721425 <= jdn ->
  exists y m d,
    _eth_from_jdn jdn = Return (y, m, d)
    /\ 1 <= m <= 13 /\ 2 <= d <= 31 /\ (m = 13 -> 2 <= d <= 7).
Proof.
  intros H. unfold _eth_from_jdn. cbv zeta.
  destruct (Z.ltb_spec jdn 1721425) as [L | _]; [lia|].
  eexists _, _, _. split; [reflexivity|].
  set (r := (jdn - 1723856) mod 1461).
  assert (Hr : 0 <= r < 1461) by (apply Z.mod_pos_bound; lia).
  clearbody r. lia.
Qed.

Lemma eth_from_jdn_Raise (jdn : Z) (e : exn) :
  _eth_from_jdn jdn = Raise e -> jdn < 1721425 /\ e = exn_invalid_jdn.
Proof.
  unfold _eth_from_jdn. cbv zeta.
  destruct (Z.ltb_spec jdn 1721425) as [L | L]; [|discriminate].
  intros E. injection E as <-. split; [assumption | reflexivity].
Qed.

Lemma eth_from_jdn_below (jdn : Z) :
  jdn < 1721425 -> _eth_from_jdn jdn = Raise exn_invalid_jdn.
Proof.
  intros H. unfold _eth_from_jdn. cbv zeta.
  destruct (Z.ltb_spec jdn 1721425) as [L | L]; [reflexivity | lia].
Qed.

(** ** The claims *)

(** C1, as stated, fails: 10000-01-01 is a date of the proleptic Gregorian
    calendar with a year of at least 1, but [_greg_to_jdn] rejects it, so
    converting it to a JDN and back does not return it. *)
Lemma greg_roundtrip_fails_at_year_10000 :
  gregorian_valid 10000 1 1 = true /\ 1 <= 10000
  /\ bind (_greg_to_jdn 10000 1 1) jdn_to_greg <> Return (mkdate 10000 1 1).
Proof.
  split; [reflexivity|]. split; [lia|]. vm_compute. discriminate.
Qed.

(** C1, amended: [_greg_to_jdn] and [jdn_to_greg] are two-sided inverses on
    the years 1 to 9999.  For every date (y, m, d) of the Gregorian calendar
    with 1 <= y <= 9999, [jdn_to_greg] applied to the result of [_greg_to_jdn]
    returns the date (y, m, d); and whenever [jdn_to_greg jdn] returns a date,
    [_greg_to_jdn] applied to its year, month and day returns [jdn]. *)
Theorem greg_jdn_two_sided_inverse :
  (forall y m d : Z,
      gregorian_valid y m d = true -> 1 <= y <= 9999 ->
      bind (_greg_to_jdn y m d) jdn_to_greg = Return (mkdate y m d))
  /\ (forall (jdn : Z) (dt : date),
         jdn_to_greg jdn = Return dt ->
         _greg_to_jdn (_year dt) (_month dt) (_day dt) = Return jdn).
Proof.
  split.
  - intros y m d V Hy.
    apply gregorian_valid_iff in V. destruct V as [Hm Hd].
    assert (E : _greg_to_jdn y m d = Return (_ymd2ord y m d + 1721425))
      by (apply greg_to_jdn_Return_iff; tauto).
    rewrite E. cbn [bind].
    apply jdn_to_greg_Return_iff. cbn [_year _month _day toordinal].
    apply (ymd2ord_range y m d Hm Hd) in Hy.
    repeat split; try tauto; lia.
  - intros jdn dt E.
    apply jdn_to_greg_Return_iff in E.
    destruct E as (Hj & Hm & Hd & Ho).
    apply greg_to_jdn_Return_iff.
    unfold toordinal in Ho.
    repeat split; try tauto; try lia;
      apply (ymd2ord_range _ _ _ Hm Hd); lia.
Qed.

Lemma greg_jdn_two_sided_inverse_witness :
  bind (_greg_to_jdn 2000 2 29) jdn_to_greg = Return (mkdate 2000 2 29)
  /\ _greg_to_jdn 2000 2 29 = Return 2451604.
Proof.
  split.
  - apply (proj1 greg_jdn_two_sided_inverse 2000 2 29); [reflexivity | lia].
  - apply (proj2 greg_jdn_two_sided_inverse 2451604 (mkdate 2000 2 29)).
    reflexivity.
Defined.

(** C2: the claim asks for a day between 1 and 6 whenever the month is 13.
    At JDN 2457277 (Gregorian 2015-09-11), which is accepted, the code
    returns month 13 with day 7. *)
Theorem eth_from_jdn_pagume_day_7 :
  1721425 <= 2457277
  /\ _eth_from_jdn 2457277 = Return (2007, 13, 7)
  /\ ~ (1 <= 7 <= 6).
Proof.
  split; [lia|]. split; [reflexivity | lia].
Qed.

(** C3, as stated, fails: [eth_from_greg] does not return (2008, 1, 1) for
    Gregorian 2015-09-11. *)
Lemma eth_from_greg_2015_9_11_not_new_year :
  eth_from_greg 2015 9 11 <> Return (2008, 1, 1).
Proof. vm_compute. discriminate. Qed.

(** C3, amended: for Gregorian 2015-09-11 [eth_from_greg] returns a date of
    Ethiopian year 2007, month 13; the next day, 2015-09-12, is the first
    one for which it returns year 2008, month 1. *)
Theorem eth_from_greg_2015_9_11 :
  (exists day, eth_from_greg 2015 9 11 = Return (2007, 13, day))
  /\ (exists day, eth_from_greg 2015 9 12 = Return (2008, 1, day)).
Proof.
  split; eexists; vm_compute; reflexivity.
Qed.

(** C4: the claim asks for the invalid-JDN error at [jdn = 1721425].  The
    guard [jdn < 1721425] does not fire there, so the call goes on to
    [date.fromordinal(0)] and fails inside the library: it raises a
    [ValueError] whose message is not the module's
    "Invalid Julian Day Number", and so not the exception that the guard
    raises one day earlier, at 1721424.  No date is returned. *)
Theorem jdn_to_greg_1721425_not_invalid_jdn :
  jdn_to_greg 1721425 = fromordinal 0
  /\ (exists msg,
        jdn_to_greg 1721425 = Raise (mkExn ValueError msg)
        /\ msg <> exc_msg exn_invalid_jdn)
  /\ jdn_to_greg 1721425 <> Raise exn_invalid_jdn
  /\ (forall dt, jdn_to_greg 1721425 <> Return dt)
  /\ jdn_to_greg 1721424 = Raise exn_invalid_jdn.
Proof.
  split; [reflexivity|].
  split; [eexists; split; [vm_compute; reflexivity | vm_compute; discriminate]|].
  split; [vm_compute; discriminate|].
  split; [|reflexivity].
  intros dt E. apply jdn_to_greg_Return_iff in E. lia.
Qed.

(** C5: [_eth_from_jdn] raises an exception exactly when [jdn < 1721425],
    the exception is then the invalid-JDN [ValueError], and for every
    [jdn >= 1721425] it returns a (year, month, day) triple. *)
Theorem eth_from_jdn_fails_iff_below_offset (jdn : Z) :
  (_eth_from_jdn jdn = Raise exn_invalid_jdn <-> jdn < 1721425)
  /\ (forall e, _eth_from_jdn jdn = Raise e -> e = exn_invalid_jdn)
  /\ (1721425 <= jdn -> exists y m d, _eth_from_jdn jdn = Return (y, m, d)).
Proof.
  split; [split|split].
  - intros E. apply (eth_from_jdn_Raise _ _ E).
  - apply eth_from_jdn_below.
  - intros e E. apply (eth_from_jdn_Raise _ _ E).
  - intros H. destruct (eth_from_jdn_ranges jdn H) as (y & m & d & E & _).
    eauto.
Qed.

Lemma eth_from_jdn_fails_iff_below_offset_witness :
  _eth_from_jdn 1721424 = Raise exn_invalid_jdn
  /\ exists y m d, _eth_from_jdn 1721425 = Return (y, m, d).
Proof.
  split.
  - apply (proj2 (proj1 (eth_from_jdn_fails_iff_below_offset 1721424))). lia.
  - apply (proj2 (proj2 (eth_from_jdn_fails_iff_below_offset 1721425))). lia.
Defined.

(** C6: [_greg_to_jdn] validates against the Gregorian calendar, leap years
    included: for a year from 1 to 9999 it returns a JDN exactly for the
    dates that exist; 2000-02-29 is accepted, 1900-02-29 and 2023-02-30 are
    rejected with the invalid-date [ValueError]. *)
Theorem greg_to_jdn_validates_calendar :
  (forall y m d : Z,
      1 <= y <= 9999 ->
      ((exists jdn, _greg_to_jdn y m d = Return jdn)
       <-> gregorian_valid y m d = true))
  /\ _greg_to_jdn 2000 2 29 = Return 2451604
  /\ _greg_to_jdn 1900 2 29 = Raise exn_invalid_date
  /\ _greg_to_jdn 2023 2 30 = Raise exn_invalid_date.
Proof.
  split; [|repeat split; reflexivity].
  intros y m d Hy.
  rewrite gregorian_valid_iff. split.
  - intros [jdn E]. apply greg_to_jdn_Return_iff in E. tauto.
  - intros [Hm Hd]. exists (_ymd2ord y m d + 1721425).
    apply greg_to_jdn_Return_iff. tauto.
Qed.

Lemma greg_to_jdn_validates_calendar_witness :
  (exists jdn, _greg_to_jdn 2024 2 29 = Return jdn)
  <-> gregorian_valid 2024 2 29 = true.
Proof.
  apply (proj1 greg_to_jdn_validates_calendar 2024 2 29). lia.
Defined.

(** C7: [eth_from_greg] is [_eth_from_jdn] after [_greg_to_jdn].  It equals
    the composition that the specification describes; when [_greg_to_jdn]
    returns a JDN, [_eth_from_jdn] returns on it and [eth_from_greg] returns
    the same triple; when [_greg_to_jdn] raises an exception, the invalid-date
    [ValueError] in particular, [eth_from_greg] raises that same exception. *)
Theorem eth_from_greg_is_composition (y m d : Z) :
  eth_from_greg y m d = gregorian_to_ethiopian_spec y m d
  /\ (forall jdn, _greg_to_jdn y m d = Return jdn ->
        eth_from_greg y m d = _eth_from_jdn jdn
        /\ exists t, _eth_from_jdn jdn = Return t)
  /\ (forall e, _greg_to_jdn y m d = Raise e ->
        eth_from_greg y m d = Raise e).
Proof.
  unfold eth_from_greg, gregorian_to_ethiopian_spec.
  split; [destruct (_greg_to_jdn y m d); reflexivity|].
  split.
  - intros jdn E. rewrite E. cbn [bind]. split; [reflexivity|].
    apply greg_to_jdn_Return_iff in E. destruct E as (Hy & Hm & Hd & ->).
    apply (ymd2ord_range y m d Hm Hd) in Hy.
    destruct (eth_from_jdn_ranges (_ymd2ord y m d + 1721425) ltac:(lia))
      as (y' & m' & d' & E' & _).
    eauto.
  - intros e E. rewrite E. reflexivity.
Qed.

Lemma eth_from_greg_is_composition_witness :
  (eth_from_greg 2016 9 11 = _eth_from_jdn 2457643
   /\ exists t, _eth_from_jdn 2457643 = Return t)
  /\ eth_from_greg 2023 2 30 = Raise exn_invalid_date.
Proof.
  split.
  - apply (proj1 (proj2 (eth_from_greg_is_composition 2016 9 11))).
    reflexivity.
  - apply (proj2 (proj2 (eth_from_greg_is_composition 2023 2 30))).
    reflexivity.
Defined.

(** C8: for every [jdn >= 1721425] the day that [_eth_from_jdn] returns lies
    between 2 and 31, so it is never 1; and the day 31 is returned for some
    accepted input. *)
Theorem eth_from_jdn_day_range :
  (forall jdn : Z,
      1721425 <= jdn ->
      exists y m d,
        _eth_from_jdn jdn = Return (y, m, d) /\ 2 <= d <= 31 /\ d <> 1)
  /\ (exists jdn y m,
         1721425 <= jdn /\ _eth_from_jdn jdn = Return (y, m, 31)).
Proof.
  split.
  - intros jdn H.
    destruct (eth_from_jdn_ranges jdn H) as (y & m & d & E & _ & Hd & _).
    exists y, m, d. repeat split; try assumption; lia.
  - exists 2457307, 2008, 1. split; [lia | reflexivity].
Qed.

Lemma eth_from_jdn_day_range_witness :
  exists y m d,
    _eth_from_jdn 2457278 = Return (y, m, d) /\ 2 <= d <= 31 /\ d <> 1.
Proof.
  apply (proj1 eth_from_jdn_day_range 2457278). lia.
Defined.

(** C9: [eth_to_greg] is unimplemented: for every (year, month, day) it
    raises nothing and returns [None], not a Gregorian date. *)
Theorem eth_to_greg_returns_None (year month day : Z) :
  eth_to_greg year month day = Return None
  /\ (forall e, eth_to_greg year month day <> Raise e)
  /\ (forall g, eth_to_greg year month day <> Return (Some g)).
Proof.
  unfold eth_to_greg. repeat split; intros; discriminate.
Qed.

(** C10: the supported Gregorian years are bounded above by 9999.
    [_greg_to_jdn] raises for every triple with a year above 9999, such as
    (10000, 1, 1), which is a date of the proleptic Gregorian calendar;
    5373484 is the JDN of 9999-12-31; and [jdn_to_greg] raises for every
    JDN above 5373484. *)
Theorem gregorian_year_bounded_above :
  (forall y m d : Z, 9999 < y -> exists e, _greg_to_jdn y m d = Raise e)
  /\ (gregorian_valid 10000 1 1 = true
      /\ exists e, _greg_to_jdn 10000 1 1 = Raise e)
  /\ _greg_to_jdn 9999 12 31 = Return 5373484
  /\ (forall jdn : Z, 5373484 < jdn -> exists e, jdn_to_greg jdn = Raise e).
Proof.
  split; [|split; [|split]].
  - intros y m d Hy.
    destruct (_greg_to_jdn y m d) as [jdn | e] eqn:E; [|eauto].
    apply greg_to_jdn_Return_iff in E. lia.
  - split; [reflexivity|]. eexists. vm_compute. reflexivity.
  - reflexivity.
  - intros jdn Hj.
    destruct (jdn_to_greg jdn) as [dt | e] eqn:E; [|eauto].
    apply jdn_to_greg_Return_iff in E. lia.
Qed.

Lemma gregorian_year_bounded_above_witness :
  (exists e, _greg_to_jdn 10000 12 31 = Raise e)
  /\ (exists e, jdn_to_greg 5373485 = Raise e).
Proof.
  split.
  - apply (proj1 gregorian_year_bounded_above 10000 12 31). lia.
  - apply (proj2 (proj2 (proj2 gregorian_year_bounded_above)) 5373485). lia.
Defined.


(** ** Further properties of [_eth_from_jdn] *)

Lemma Return_triple_inj (a b c a' b' c' : Z) :
  @Return (Z * Z * Z) (a, b, c) = Return (a', b', c') ->
  a = a' /\ b = b' /\ c = c'.
Proof. intros E. injection E as -> -> ->. repeat split. Qed.

Lemma eth_from_jdn_formula (jdn y m d : Z) :
  _eth_from_jdn jdn = Return (y, m, d) ->
  1721425 <= jdn /\ eth_triple y m d /\ jdn = eth_triple_jdn y m d.
Proof.
  unfold _eth_from_jdn, eth_triple, eth_triple_jdn. cbv zeta.
  destruct (Z.ltb_spec jdn 1721425) as [L | L]; [discriminate|].
  intros E. apply Return_triple_inj in E. destruct E as (<- & <- & <-).
  set (D := jdn - 1723856).
  assert (HD : jdn = D + 1723856) by (unfold D; lia).
  clearbody D. subst jdn.
  pose proof (Z.div_mod D 1461 ltac:(lia)) as E1.
  pose proof (Z.mod_pos_bound D 1461 ltac:(lia)) as B1.
  set (q := D / 1461) in *. set (r := D mod 1461) in *.
  clearbody q r.
  assert (Hk : 0 <= r / 1460 <= 1) by lia.
  assert (Ek : r / 1460 = 1 -> r = 1460) by lia.
  assert (Ek0 : r / 1460 = 0 -> r < 1460) by lia.
  set (k := r / 1460) in *. clearbody k.
  pose proof (Z.div_mod r 365 ltac:(lia)) as E2.
  pose proof (Z.mod_pos_bound r 365 ltac:(lia)) as B2.
  set (e := r / 365) in *. set (n := r mod 365) in *.
  clearbody e n.
  assert (Hy : (4 * q + e - k) / 4 = q /\ (4 * q + e - k) mod 4 = e - k)
    by lia.
  destruct Hy as [-> Hy]. rewrite Hy.
  split; [lia|]. split; [|lia].
  destruct (Z.eqb_spec (e - k) 3); cbn [int_of_bool]; lia.
Qed.

(** X1: what [_eth_from_jdn] returns determines its argument.  If it returns
    (y, m, d) on [jdn], then (y, m, d) is one of the triples described by
    [eth_triple] and [jdn] is
    1723856 + 365 y + floor(y / 4) + 30 (m - 1) + (d - 2). *)
Theorem eth_from_jdn_determines_jdn (jdn y m d : Z) :
  _eth_from_jdn jdn = Return (y, m, d) ->
  1721425 <= jdn /\ eth_triple y m d /\ jdn = eth_triple_jdn y m d.
Proof. exact (eth_from_jdn_formula jdn y m d). Qed.

Lemma eth_triple_jdn_lt (y m d y' m' d' : Z) :
  eth_triple y m d -> eth_triple y' m' d' ->
  ymd_lt y m d y' m' d' ->
  eth_triple_jdn y m d < eth_triple_jdn y' m' d'.
Proof.
  unfold eth_triple, eth_triple_jdn, ymd_lt.
  intros T T' L.
  destruct (Z.eqb_spec (y mod 4) 3) as [E3 | E3];
    destruct (Z.eqb_spec (y' mod 4) 3) as [E3' | E3'];
    cbn [int_of_bool] in T, T'; lia.
Qed.

Lemma ymd_lt_trichotomy (y m d y' m' d' : Z) :
  ymd_lt y m d y' m' d' \/ (y = y' /\ m = m' /\ d = d')
  \/ ymd_lt y' m' d' y m d.
Proof. unfold ymd_lt. lia. Qed.

Lemma eth_triple_jdn_inj (y m d y' m' d' : Z) :
  eth_triple y m d -> eth_triple y' m' d' ->
  eth_triple_jdn y m d = eth_triple_jdn y' m' d' ->
  y = y' /\ m = m' /\ d = d'.
Proof.
  intros T T' E.
  destruct (ymd_lt_trichotomy y m d y' m' d') as [L | [L | L]];
    [exfalso | exact L | exfalso].
  - pose proof (eth_triple_jdn_lt _ _ _ _ _ _ T T' L). lia.
  - pose proof (eth_triple_jdn_lt _ _ _ _ _ _ T' T L). lia.
Qed.

Lemma eth_from_jdn_formula_inv (y m d : Z) :
  eth_triple y m d -> 1721425 <= eth_triple_jdn y m d ->
  _eth_from_jdn (eth_triple_jdn y m d) = Return (y, m, d).
Proof.
  intros T H.
  destruct (eth_from_jdn_ranges _ H) as (y' & m' & d' & E & _).
  destruct (eth_from_jdn_formula _ _ _ _ E) as (_ & T' & J).
  destruct (eth_triple_jdn_inj _ _ _ _ _ _ T T' J) as (-> & -> & ->).
  exact E.
Qed.

(** X2: every triple of [eth_triple] whose day number is at least 1721425 is
    returned by [_eth_from_jdn], on that day number: the arithmetic of
    [_eth_from_jdn] and the formula of X1 are inverse to each other. *)
Theorem eth_from_jdn_of_triple (y m d : Z) :
  eth_triple y m d -> 1721425 <= eth_triple_jdn y m d ->
  _eth_from_jdn (eth_triple_jdn y m d) = Return (y, m, d).
Proof. exact (eth_from_jdn_formula_inv y m d). Qed.

Lemma eth_from_jdn_of_triple_witness :
  _eth_from_jdn (eth_triple_jdn 2007 13 7) = Return (2007, 13, 7).
Proof.
  apply (eth_from_jdn_of_triple 2007 13 7).
  - right. vm_compute. intuition discriminate.
  - vm_compute. discriminate.
Defined.

Lemma eth_from_jdn_determines_jdn_witness :
  1721425 <= 2457277 /\ eth_triple 2007 13 7
  /\ 2457277 = eth_triple_jdn 2007 13 7.
Proof.
  apply (eth_from_jdn_determines_jdn 2457277 2007 13 7). reflexivity.
Defined.

Lemma eth_from_jdn_injective (jdn jdn' : Z) (t : Z * Z * Z) :
  _eth_from_jdn jdn = Return t -> _eth_from_jdn jdn' = Return t ->
  jdn = jdn'.
Proof.
  destruct t as [[y m] d]. intros E E'.
  destruct (eth_from_jdn_formula _ _ _ _ E) as (_ & _ & J).
  destruct (eth_from_jdn_formula _ _ _ _ E') as (_ & _ & J').
  congruence.
Qed.

(** X3: [_eth_from_jdn] is injective: two day numbers on which it returns
    the same triple are equal. *)
Theorem eth_from_jdn_inj (jdn jdn' : Z) (t : Z * Z * Z) :
  _eth_from_jdn jdn = Return t -> _eth_from_jdn jdn' = Return t ->
  jdn = jdn'.
Proof. exact (eth_from_jdn_injective jdn jdn' t). Qed.

Lemma eth_from_jdn_inj_witness : 2457277 = 2457277.
Proof.
  apply (eth_from_jdn_inj 2457277 2457277 (2007, 13, 7)); reflexivity.
Defined.

(** X4: [_eth_from_jdn] preserves the order: a later day number gives a
    later triple, by year, then month, then day. *)
Theorem eth_from_jdn_increasing (jdn jdn' y m d y' m' d' : Z) :
  _eth_from_jdn jdn = Return (y, m, d) ->
  _eth_from_jdn jdn' = Return (y', m', d') ->
  jdn < jdn' -> ymd_lt y m d y' m' d'.
Proof.
  intros E E' L.
  destruct (eth_from_jdn_formula _ _ _ _ E) as (_ & T & J).
  destruct (eth_from_jdn_formula _ _ _ _ E') as (_ & T' & J').
  destruct (ymd_lt_trichotomy y m d y' m' d') as [G | [G | G]];
    [exact G | exfalso | exfalso].
  - destruct G as (-> & -> & ->). lia.
  - pose proof (eth_triple_jdn_lt _ _ _ _ _ _ T' T G). lia.
Qed.

Lemma eth_from_jdn_increasing_witness : ymd_lt 2007 13 7 2008 1 2.
Proof.
  apply (eth_from_jdn_increasing 2457277 2457278); [reflexivity .. | lia].
Defined.

Lemma eth_next_triple (y m d : Z) :
  eth_triple y m d ->
  eth_triple (fst (fst (eth_next y m d))) (snd (fst (eth_next y m d)))
    (snd (eth_next y m d))
  /\ eth_triple_jdn (fst (fst (eth_next y m d))) (snd (fst (eth_next y m d)))
       (snd (eth_next y m d)) = eth_triple_jdn y m d + 1.
Proof.
  unfold eth_triple, eth_next, eth_triple_jdn. intros T.
  destruct (Z.eqb_spec (y mod 4) 3) as [E3 | E3]; cbn [int_of_bool] in *;
    repeat match goal with
           | |- context [?a <? ?b] => destruct (Z.ltb_spec a b)
           end; cbn [fst snd];
    repeat match goal with
           | |- context [?a =? ?b] => destruct (Z.eqb_spec a b)
           end; cbn [int_of_bool];
    (split; lia).
Qed.

Lemma eth_from_jdn_succ (jdn y m d : Z) :
  _eth_from_jdn jdn = Return (y, m, d) ->
  _eth_from_jdn (jdn + 1) = Return (eth_next y m d).
Proof.
  intros E.
  destruct (eth_from_jdn_formula _ _ _ _ E) as (H & T & J).
  destruct (eth_next_triple y m d T) as [T' J'].
  destruct (eth_next y m d) as [[y' m'] d']. cbn [fst snd] in *.
  replace (jdn + 1) with (eth_triple_jdn y' m' d') by lia.
  apply eth_from_jdn_formula_inv; [exact T' | lia].
Qed.

(** X5: [_eth_from_jdn] steps through its triples one day at a time: if it
    returns (y, m, d) on [jdn], then on [jdn + 1] it returns the next triple:
    the day after in the same month, or day 2 of the next month after day 31
    of a month up to 12, or day 2 of month 1 of the next year after the last
    day of month 13 (day 7 when y mod 4 = 3, day 6 otherwise). *)
Theorem eth_from_jdn_next_day (jdn y m d : Z) :
  _eth_from_jdn jdn = Return (y, m, d) ->
  _eth_from_jdn (jdn + 1) = Return (eth_next y m d).
Proof. exact (eth_from_jdn_succ jdn y m d). Qed.

Lemma eth_from_jdn_next_day_witness :
  _eth_from_jdn (2457277 + 1) = Return (eth_next 2007 13 7).
Proof.
  apply (eth_from_jdn_next_day 2457277 2007 13 7). reflexivity.
Defined.

(** X6: [_eth_from_jdn] has a period of 1461 days: 1461 days later the
    month and the day are the same and the year is 4 more. *)
Theorem eth_from_jdn_four_year_cycle (jdn y m d : Z) :
  _eth_from_jdn jdn = Return (y, m, d) ->
  _eth_from_jdn (jdn + 1461) = Return (y + 4, m, d).
Proof.
  intros E.
  destruct (eth_from_jdn_formula _ _ _ _ E) as (H & T & J).
  assert (T' : eth_triple (y + 4) m d).
  { unfold eth_triple in *.
    replace ((y + 4) mod 4) with (y mod 4) by lia. exact T. }
  replace (jdn + 1461) with (eth_triple_jdn (y + 4) m d)
    by (unfold eth_triple_jdn in *; lia).
  apply eth_from_jdn_formula_inv; [exact T'|].
  unfold eth_triple_jdn in *. lia.
Qed.

Lemma eth_from_jdn_four_year_cycle_witness :
  _eth_from_jdn (2457277 + 1461) = Return (2007 + 4, 13, 7).
Proof.
  apply (eth_from_jdn_four_year_cycle 2457277 2007 13 7). reflexivity.
Defined.

(** X7: [_eth_from_jdn] accepts day numbers that lie before its year 1.
    The year it returns is never below -7, and it is at least 1 exactly
    from the day number 1724221 on. *)
Theorem eth_from_jdn_year_sign (jdn y m d : Z) :
  _eth_from_jdn jdn = Return (y, m, d) ->
  -7 <= y /\ (1 <= y <-> 1724221 <= jdn).
Proof.
  intros E.
  destruct (eth_from_jdn_formula _ _ _ _ E) as (H & T & J).
  unfold eth_triple, eth_triple_jdn in *.
  destruct (Z.eqb_spec (y mod 4) 3); cbn [int_of_bool] in T; lia.
Qed.

Lemma eth_from_jdn_year_sign_witness :
  -7 <= -7 /\ (1 <= -7 <-> 1724221 <= 1721425).
Proof.
  apply (eth_from_jdn_year_sign 1721425 (-7) 5 8). reflexivity.
Defined.

(** ** Further properties of [_greg_to_jdn] and [jdn_to_greg] *)

Lemma day_of_year_lt (leap : bool) (m d m' d' : Z) :
  1 <= m <= 12 -> 1 <= d <= dim_of leap m ->
  1 <= m' <= 12 -> 1 <= d' <= dim_of leap m' ->
  m < m' \/ (m = m' /\ d < d') ->
  dbm_of leap m + d < dbm_of leap m' + d'.
Proof.
  intros Hm Hd Hm' Hd'.
  month_split Hm; month_split Hm'; destruct leap;
    vm_compute (dim_of _ _) in Hd; vm_compute (dim_of _ _) in Hd';
    vm_compute (dbm_of _ _); lia.
Qed.

Lemma ymd2ord_lt (y m d y' m' d' : Z) :
  1 <= m <= 12 -> 1 <= d <= _days_in_month y m ->
  1 <= m' <= 12 -> 1 <= d' <= _days_in_month y' m' ->
  ymd_lt y m d y' m' d' -> _ymd2ord y m d < _ymd2ord y' m' d'.
Proof.
  intros Hm Hd Hm' Hd' [L | [<- L]].
  - pose proof (ymd2ord_bounds y m d Hm Hd).
    pose proof (ymd2ord_bounds y' m' d' Hm' Hd').
    pose proof (days_before_year_mono (y + 1) y' ltac:(lia)). lia.
  - unfold _ymd2ord. rewrite !days_before_month_leap.
    rewrite days_in_month_leap in Hd, Hd'.
    pose proof (day_of_year_lt (_is_leap y) m d m' d' Hm Hd Hm' Hd' L). lia.
Qed.

(** The day after an existing date exists and has the next ordinal. *)
Lemma greg_next_ord (y m d : Z) :
  1 <= m <= 12 -> 1 <= d <= _days_in_month y m ->
  1 <= snd (fst (greg_next y m d)) <= 12
  /\ 1 <= snd (greg_next y m d)
       <= _days_in_month (fst (fst (greg_next y m d)))
            (snd (fst (greg_next y m d)))
  /\ _ymd2ord (fst (fst (greg_next y m d))) (snd (fst (greg_next y m d)))
       (snd (greg_next y m d)) = _ymd2ord y m d + 1.
Proof.
  intros Hm Hd. unfold greg_next.
  destruct (gregorian_valid y m (d + 1)) eqn:V.
  - apply gregorian_valid_iff in V. cbn [fst snd].
    unfold _ymd2ord. repeat split; lia.
  - assert (Ed : d = _days_in_month y m).
    { destruct (Z.eq_dec d (_days_in_month y m)) as [|N]; [assumption|].
      assert (V' : gregorian_valid y m (d + 1) = true)
        by (apply gregorian_valid_iff; lia).
      congruence. }
    clear V. subst d.
    destruct (Z.ltb_spec m 12) as [L | L]; cbn [fst snd].
    + unfold _ymd2ord. rewrite !days_before_month_leap, !days_in_month_leap.
      assert (Hm' : 1 <= m <= 11) by lia. clear Hm Hd L.
      assert (C : m = 1 \/ m = 2 \/ m = 3 \/ m = 4 \/ m = 5 \/ m = 6
                  \/ m = 7 \/ m = 8 \/ m = 9 \/ m = 10 \/ m = 11) by lia.
      repeat (destruct C as [C | C]); subst m; destruct (_is_leap y);
        vm_compute (dim_of _ _); vm_compute (dbm_of _ _); lia.
    + assert (m = 12) by lia. subst m.
      unfold _ymd2ord.
      rewrite days_before_year_succ, !days_before_month_leap,
        !days_in_month_leap.
      destruct (_is_leap y), (_is_leap (y + 1));
        vm_compute (dim_of _ _); vm_compute (dbm_of _ _);
        cbn [int_of_bool]; lia.
Qed.

Lemma greg_to_jdn_injective (y m d y' m' d' jdn : Z) :
  _greg_to_jdn y m d = Return jdn -> _greg_to_jdn y' m' d' = Return jdn ->
  y = y' /\ m = m' /\ d = d'.
Proof.
  intros E E'.
  apply greg_to_jdn_Return_iff in E. destruct E as (_ & Hm & Hd & J).
  apply greg_to_jdn_Return_iff in E'. destruct E' as (_ & Hm' & Hd' & J').
  apply ymd2ord_inj; try assumption. lia.
Qed.

(** X8: [_greg_to_jdn] is injective: two dates with the same JDN are the
    same date. *)
Theorem greg_to_jdn_inj (y m d y' m' d' jdn : Z) :
  _greg_to_jdn y m d = Return jdn -> _greg_to_jdn y' m' d' = Return jdn ->
  y = y' /\ m = m' /\ d = d'.
Proof. exact (greg_to_jdn_injective y m d y' m' d' jdn). Qed.

Lemma greg_to_jdn_inj_witness : 2015 = 2015 /\ 9 = 9 /\ 11 = 11.
Proof.
  apply (greg_to_jdn_inj 2015 9 11 2015 9 11 2457277); reflexivity.
Defined.

Lemma greg_to_jdn_Return_range (y m d jdn : Z) :
  _greg_to_jdn y m d = Return jdn -> 1721426 <= jdn <= 5373484.
Proof.
  intros E.
  apply greg_to_jdn_Return_iff in E. destruct E as (Hy & Hm & Hd & ->).
  apply (ymd2ord_range y m d Hm Hd) in Hy. lia.
Qed.

(** X9: the JDNs that [_greg_to_jdn] returns are exactly those from 1721426
    to 5373484: each returned JDN is in that range, and each JDN of the
    range is returned for some date. *)
Theorem greg_to_jdn_image (jdn : Z) :
  (exists y m d, _greg_to_jdn y m d = Return jdn)
  <-> 1721426 <= jdn <= 5373484.
Proof.
  split.
  - intros (y & m & d & E). exact (greg_to_jdn_Return_range _ _ _ _ E).
  - intros H.
    destruct (jdn_to_greg_supported_range jdn H) as [dt E].
    exists (_year dt), (_month dt), (_day dt).
    apply jdn_to_greg_Return_iff in E.
    destruct E as (_ & Hm & Hd & Ho). unfold toordinal in Ho.
    apply greg_to_jdn_Return_iff.
    repeat split; try tauto; try lia;
      apply (ymd2ord_range _ _ _ Hm Hd); lia.
Qed.

(** X10: [_greg_to_jdn] preserves the order of dates: of two accepted dates
    the earlier one, by year, then month, then day, has the smaller JDN, and
    conversely. *)
Theorem greg_to_jdn_increasing (y m d y' m' d' jdn jdn' : Z) :
  _greg_to_jdn y m d = Return jdn -> _greg_to_jdn y' m' d' = Return jdn' ->
  (ymd_lt y m d y' m' d' <-> jdn < jdn').
Proof.
  intros E E'.
  apply greg_to_jdn_Return_iff in E. destruct E as (_ & Hm & Hd & ->).
  apply greg_to_jdn_Return_iff in E'. destruct E' as (_ & Hm' & Hd' & ->).
  split.
  - intros L. pose proof (ymd2ord_lt _ _ _ _ _ _ Hm Hd Hm' Hd' L). lia.
  - intros L.
    destruct (ymd_lt_trichotomy y m d y' m' d') as [G | [G | G]];
      [exact G | exfalso | exfalso].
    + destruct G as (-> & -> & ->). lia.
    + pose proof (ymd2ord_lt _ _ _ _ _ _ Hm' Hd' Hm Hd G). lia.
Qed.

Lemma greg_to_jdn_increasing_witness :
  ymd_lt 2015 12 31 2016 1 1 <-> 2457388 < 2457389.
Proof.
  apply (greg_to_jdn_increasing 2015 12 31 2016 1 1); reflexivity.
Defined.

Lemma greg_to_jdn_succ (y m d jdn : Z) :
  _greg_to_jdn y m d = Return jdn -> jdn < 5373484 ->
  _greg_to_jdn (fst (fst (greg_next y m d))) (snd (fst (greg_next y m d)))
    (snd (greg_next y m d)) = Return (jdn + 1).
Proof.
  intros E L.
  apply greg_to_jdn_Return_iff in E. destruct E as (Hy & Hm & Hd & ->).
  destruct (greg_next_ord y m d Hm Hd) as (Hm' & Hd' & Ho).
  apply (ymd2ord_range y m d Hm Hd) in Hy.
  apply greg_to_jdn_Return_iff.
  repeat split; try tauto; try lia;
    apply (ymd2ord_range _ _ _ Hm' Hd'); lia.
Qed.

(** X11: the JDN is a continuous day count: when [_greg_to_jdn] returns
    [jdn] for a date other than 9999-12-31, it returns [jdn + 1] for the
    day after (the next day of the month, the first of the next month after
    the last day of a month, January 1 of the next year after December 31). *)
Theorem greg_to_jdn_next_day (y m d jdn : Z) :
  _greg_to_jdn y m d = Return jdn -> jdn < 5373484 ->
  _greg_to_jdn (fst (fst (greg_next y m d))) (snd (fst (greg_next y m d)))
    (snd (greg_next y m d)) = Return (jdn + 1).
Proof. exact (greg_to_jdn_succ y m d jdn). Qed.

Lemma greg_to_jdn_next_day_witness :
  _greg_to_jdn (fst (fst (greg_next 2015 12 31)))
    (snd (fst (greg_next 2015 12 31))) (snd (greg_next 2015 12 31))
  = Return (2457388 + 1).
Proof.
  apply (greg_to_jdn_next_day 2015 12 31 2457388); [reflexivity | lia].
Defined.

(** X12: the Gregorian calendar repeats after 400 years, which are 146097
    days: when [_greg_to_jdn] returns [jdn] for (y, m, d) and y + 400 is at
    most 9999, it returns [jdn + 146097] for (y + 400, m, d). *)
Theorem greg_to_jdn_400_years (y m d jdn : Z) :
  _greg_to_jdn y m d = Return jdn -> y + 400 <= 9999 ->
  _greg_to_jdn (y + 400) m d = Return (jdn + 146097).
Proof.
  intros E L.
  apply greg_to_jdn_Return_iff in E. destruct E as (Hy & Hm & Hd & ->).
  assert (El : _is_leap (y + 400) = _is_leap y).
  { unfold _is_leap.
    replace ((y + 400) mod 4) with (y mod 4) by lia.
    replace ((y + 400) mod 100) with (y mod 100) by lia.
    replace ((y + 400) mod 400) with (y mod 400) by lia. reflexivity. }
  assert (Ed : _days_before_year (y + 400) = _days_before_year y + 146097)
    by (unfold _days_before_year; cbv zeta; lia).
  apply greg_to_jdn_Return_iff.
  rewrite days_in_month_leap in *. unfold _ymd2ord.
  rewrite !days_before_month_leap, El, Ed.
  repeat split; try tauto; lia.
Qed.

Lemma greg_to_jdn_400_years_witness :
  _greg_to_jdn (2000 + 400) 2 29 = Return (2451604 + 146097).
Proof.
  apply (greg_to_jdn_400_years 2000 2 29 2451604); [reflexivity | lia].
Defined.

(** X13: [jdn_to_greg] returns a date exactly on the JDNs from 1721426 to
    5373484, and a date it returns exists in the Gregorian calendar and has
    a year from 1 to 9999. *)
Theorem jdn_to_greg_returns_iff (jdn : Z) :
  ((exists dt, jdn_to_greg jdn = Return dt) <-> 1721426 <= jdn <= 5373484)
  /\ (forall dt, jdn_to_greg jdn = Return dt ->
        1 <= _year dt <= 9999
        /\ gregorian_valid (_year dt) (_month dt) (_day dt) = true).
Proof.
  split; [split|].
  - intros [dt E]. apply jdn_to_greg_Return_iff in E. tauto.
  - apply jdn_to_greg_supported_range.
  - intros dt E. apply jdn_to_greg_Return_iff in E.
    destruct E as (Hj & Hm & Hd & Ho). unfold toordinal in Ho.
    split; [apply (ymd2ord_range _ _ _ Hm Hd); lia|].
    apply gregorian_valid_iff. tauto.
Qed.

Lemma jdn_to_greg_returns_iff_witness :
  1 <= 2015 <= 9999 /\ gregorian_valid 2015 9 11 = true.
Proof.
  apply (proj2 (jdn_to_greg_returns_iff 2457277) (mkdate 2015 9 11)).
  reflexivity.
Defined.

(** X14: [jdn_to_greg] steps through the calendar one day at a time: when it
    returns a date on [jdn] and [jdn] is below 5373484, it returns the day
    after that date on [jdn + 1]. *)
Theorem jdn_to_greg_next_day (jdn : Z) (dt : date) :
  jdn_to_greg jdn = Return dt -> jdn < 5373484 ->
  jdn_to_greg (jdn + 1)
  = Return (date_of_triple (greg_next (_year dt) (_month dt) (_day dt))).
Proof.
  intros E L. apply jdn_to_greg_Return_iff in E.
  destruct E as (Hj & Hm & Hd & Ho). unfold toordinal in Ho.
  destruct (greg_next_ord _ _ _ Hm Hd) as (Hm' & Hd' & Ho').
  apply jdn_to_greg_Return_iff.
  unfold toordinal, date_of_triple. cbn [_year _month _day].
  repeat split; try tauto; lia.
Qed.

Lemma jdn_to_greg_next_day_witness :
  jdn_to_greg (2451604 + 1) = Return (date_of_triple (greg_next 2000 2 29)).
Proof.
  apply (jdn_to_greg_next_day 2451604 (mkdate 2000 2 29));
    [reflexivity | lia].
Defined.

(** ** Further properties of [eth_from_greg] *)

Lemma eth_from_greg_Return_iff (y m d : Z) (t : Z * Z * Z) :
  eth_from_greg y m d = Return t <->
  exists jdn, _greg_to_jdn y m d = Return jdn /\ _eth_from_jdn jdn = Return t.
Proof.
  unfold eth_from_greg.
  destruct (_greg_to_jdn y m d) as [j | e]; cbn [bind]; split.
  - intros E. eauto.
  - intros (j' & E & E'). injection E as <-. exact E'.
  - discriminate.
  - intros (j' & E & _). discriminate.
Qed.

(** X15: the Ethiopian year that [eth_from_greg] returns is 8 or 7 less than
    the Gregorian year. *)
Theorem eth_from_greg_year_offset (y m d ey em ed : Z) :
  eth_from_greg y m d = Return (ey, em, ed) ->
  ey = y - 8 \/ ey = y - 7.
Proof.
  intros E. apply eth_from_greg_Return_iff in E.
  destruct E as (jdn & E & E').
  apply greg_to_jdn_Return_iff in E. destruct E as (Hy & Hm & Hd & ->).
  pose proof (ymd2ord_bounds y m d Hm Hd) as B.
  destruct (eth_from_jdn_formula _ _ _ _ E') as (_ & T & J).
  unfold _days_before_year in B. cbv zeta in B.
  unfold eth_triple, eth_triple_jdn in *.
  set (o := _ymd2ord y m d) in *. clearbody o.
  destruct (Z.eqb_spec (ey mod 4) 3); cbn [int_of_bool] in T; lia.
Qed.

Lemma eth_from_greg_year_offset_witness :
  2007 = 2015 - 8 \/ 2007 = 2015 - 7.
Proof.
  apply (eth_from_greg_year_offset 2015 9 11 2007 13 7). reflexivity.
Defined.

(** X16: [eth_from_greg] is injective: two Gregorian dates for which it
    returns the same triple are the same date. *)
Theorem eth_from_greg_inj (y m d y' m' d' : Z) (t : Z * Z * Z) :
  eth_from_greg y m d = Return t -> eth_from_greg y' m' d' = Return t ->
  y = y' /\ m = m' /\ d = d'.
Proof.
  intros E E'.
  apply eth_from_greg_Return_iff in E. destruct E as (j & G & F).
  apply eth_from_greg_Return_iff in E'. destruct E' as (j' & G' & F').
  pose proof (eth_from_jdn_injective _ _ _ F F') as <-.
  exact (greg_to_jdn_injective _ _ _ _ _ _ _ G G').
Qed.

Lemma eth_from_greg_inj_witness : 2015 = 2015 /\ 9 = 9 /\ 11 = 11.
Proof.
  apply (eth_from_greg_inj 2015 9 11 2015 9 11 (2007, 13, 7)); reflexivity.
Defined.

(** X17: [eth_from_greg] fails only through its first step.  It returns a
    triple exactly when [_greg_to_jdn] returns a JDN, and an exception that
    it raises was raised by [_greg_to_jdn] on the same arguments: the JDN
    check of [_eth_from_jdn] never fails inside [eth_from_greg]. *)
Theorem eth_from_greg_fails_only_on_date (y m d : Z) :
  ((exists t, eth_from_greg y m d = Return t)
   <-> (exists jdn, _greg_to_jdn y m d = Return jdn))
  /\ (forall e, eth_from_greg y m d = Raise e ->
        _greg_to_jdn y m d = Raise e).
Proof.
  split; [split|].
  - intros [t E]. apply eth_from_greg_Return_iff in E.
    destruct E as (j & G & _). eauto.
  - intros [j G].
    assert (H : 1721425 <= j).
    { apply greg_to_jdn_Return_iff in G. destruct G as (Hy & Hm & Hd & ->).
      apply (ymd2ord_range y m d Hm Hd) in Hy. lia. }
    destruct (eth_from_jdn_ranges j H) as (ey & em & ed & F & _).
    exists (ey, em, ed). apply eth_from_greg_Return_iff. eauto.
  - intros e E. unfold eth_from_greg in E.
    destruct (_greg_to_jdn y m d) as [j | e'] eqn:G; cbn [bind] in E.
    + exfalso.
      apply eth_from_jdn_Raise in E. destruct E as [L _].
      apply greg_to_jdn_Return_iff in G. destruct G as (Hy & Hm & Hd & ->).
      apply (ymd2ord_range y m d Hm Hd) in Hy. lia.
    + injection E as <-. reflexivity.
Qed.

Lemma eth_from_greg_fails_only_on_date_witness :
  _greg_to_jdn 2023 2 30 = Raise exn_invalid_date.
Proof.
  apply (proj2 (eth_from_greg_fails_only_on_date 2023 2 30)). reflexivity.
Defined.

(** X18: consecutive Gregorian days are converted to consecutive triples:
    when [eth_from_greg] returns (ey, em, ed) for a date other than
    9999-12-31, it returns the triple after (ey, em, ed) for the day after. *)
Theorem eth_from_greg_next_day (y m d ey em ed : Z) :
  eth_from_greg y m d = Return (ey, em, ed) ->
  (y, m, d) <> (9999, 12, 31) ->
  eth_from_greg (fst (fst (greg_next y m d))) (snd (fst (greg_next y m d)))
    (snd (greg_next y m d)) = Return (eth_next ey em ed).
Proof.
  intros E N. apply eth_from_greg_Return_iff in E.
  destruct E as (jdn & G & F).
  assert (L : jdn < 5373484).
  { assert (R : 1721426 <= jdn <= 5373484)
      by (exact (greg_to_jdn_Return_range _ _ _ _ G)).
    destruct (Z.eq_dec jdn 5373484) as [-> | Nj]; [exfalso | lia].
    assert (G' : _greg_to_jdn 9999 12 31 = Return 5373484) by reflexivity.
    destruct (greg_to_jdn_injective _ _ _ _ _ _ _ G G') as (-> & -> & ->).
    apply N. reflexivity. }
  apply eth_from_greg_Return_iff. exists (jdn + 1). split.
  - apply greg_to_jdn_succ; assumption.
  - apply eth_from_jdn_succ; assumption.
Qed.

Lemma eth_from_greg_next_day_witness :
  eth_from_greg (fst (fst (greg_next 2015 9 11)))
    (snd (fst (greg_next 2015 9 11))) (snd (greg_next 2015 9 11))
  = Return (eth_next 2007 13 7).
Proof.
  apply (eth_from_greg_next_day 2015 9 11 2007 13 7);
    [reflexivity | discriminate].
Defined.

(** X19: for the Gregorian years 1900 to 2099, [eth_from_greg] returns the
    first triple of the Ethiopian year y - 7, which is (y - 7, 1, 2), for
    September 11 of year y, and for September 12 when y mod 4 = 3. *)
Theorem eth_from_greg_new_year (y : Z) :
  1900 <= y <= 2099 ->
  eth_from_greg y 9 (11 + int_of_bool (y mod 4 =? 3)) = Return (y - 7, 1, 2).
Proof.
  intros H.
  assert (K : new_year_ok y = true).
  { apply (zrange_forallb new_year_ok 1900 200);
      [vm_compute; reflexivity | lia]. }
  unfold new_year_ok in K.
  destruct (eth_from_greg y 9 (11 + int_of_bool (y mod 4 =? 3)))
    as [[[ey em] ed] | e]; [|discriminate].
  apply andb_prop in K. destruct K as [K Kd].
  apply andb_prop in K. destruct K as [Ky Km].
  apply Z.eqb_eq in Ky, Km, Kd. subst. reflexivity.
Qed.

Lemma eth_from_greg_new_year_witness :
  eth_from_greg 2015 9 (11 + int_of_bool (2015 mod 4 =? 3))
  = Return (2015 - 7, 1, 2).
Proof.
  apply (eth_from_greg_new_year 2015). lia.
Defined.

(** X20: the three converters agree: when [jdn_to_greg] returns a date on
    [jdn], [eth_from_greg] on the year, month and day of that date gives what
    [_eth_from_jdn] gives on [jdn]. *)
Theorem eth_from_greg_of_jdn_to_greg (jdn : Z) (dt : date) :
  jdn_to_greg jdn = Return dt ->
  eth_from_greg (_year dt) (_month dt) (_day dt) = _eth_from_jdn jdn.
Proof.
  intros E.
  assert (G : _greg_to_jdn (_year dt) (_month dt) (_day dt) = Return jdn).
  { apply jdn_to_greg_Return_iff in E.
    destruct E as (Hj & Hm & Hd & Ho). unfold toordinal in Ho.
    apply greg_to_jdn_Return_iff.
    repeat split; try tauto; try lia;
      apply (ymd2ord_range _ _ _ Hm Hd); lia. }
  unfold eth_from_greg. rewrite G. reflexivity.
Qed.

Lemma eth_from_greg_of_jdn_to_greg_witness :
  eth_from_greg 2015 9 11 = _eth_from_jdn 2457277.
Proof.
  apply (eth_from_greg_of_jdn_to_greg 2457277 (mkdate 2015 9 11)).
  reflexivity.
Defined.

(** X21: the years of [_eth_from_jdn] have 365 days, and 366 when the year
    leaves remainder 3 modulo 4: if it returns (y, m, d) with m <= 12 on
    [jdn], it returns (y + 1, m, d) on [jdn + 365], or on [jdn + 366] when
    y mod 4 = 3. *)
Theorem eth_from_jdn_year_length (jdn y m d : Z) :
  _eth_from_jdn jdn = Return (y, m, d) -> m <= 12 ->
  _eth_from_jdn (jdn + 365 + int_of_bool (y mod 4 =? 3))
  = Return (y + 1, m, d).
Proof.
  intros E Lm.
  destruct (eth_from_jdn_formula _ _ _ _ E) as (H & T & J).
  assert (T' : eth_triple (y + 1) m d).
  { unfold eth_triple in *. left.
    destruct (Z.eqb_spec (y mod 4) 3); cbn [int_of_bool] in T; lia. }
  assert (J' : jdn + 365 + int_of_bool (y mod 4 =? 3)
               = eth_triple_jdn (y + 1) m d).
  { unfold eth_triple_jdn in *.
    destruct (Z.eqb_spec (y mod 4) 3); cbn [int_of_bool]; lia. }
  rewrite J'. apply eth_from_jdn_formula_inv; [exact T'|].
  rewrite <- J'. destruct (y mod 4 =? 3); cbn [int_of_bool]; lia.
Qed.

Lemma eth_from_jdn_year_length_witness :
  _eth_from_jdn (2457278 + 365 + int_of_bool (2008 mod 4 =? 3))
  = Return (2008 + 1, 1, 2).
Proof.
  apply (eth_from_jdn_year_length 2457278 2008 1 2); [reflexivity | lia].
Defined.

(** X22: on arguments that fit a C int, [_greg_to_jdn] raises exactly when
    the year is outside 1..9999 or the date does not exist in its year, and
    the exception is then always the module's own
    ValueError("Invalid date for Gregorian calendar"): the message of the
    [date] constructor never reaches the caller. *)
Theorem greg_to_jdn_error (y m d : Z) :
  fits_int y -> fits_int m -> fits_int d ->
  (_greg_to_jdn y m d = Raise exn_invalid_date
   <-> ~ (1 <= y <= 9999 /\ gregorian_valid y m d = true))
  /\ (forall e, _greg_to_jdn y m d = Raise e -> e = exn_invalid_date).
Proof.
  intros Fy Fm Fd. split; [split|].
  - intros R [Hy V]. apply gregorian_valid_iff in V.
    assert (E : _greg_to_jdn y m d = Return (_ymd2ord y m d + 1721425))
      by (apply greg_to_jdn_Return_iff; tauto).
    congruence.
  - intros N.
    destruct (greg_to_jdn_total y m d Fy Fm Fd) as [[j E] | R]; [|exact R].
    exfalso. apply N. apply greg_to_jdn_Return_iff in E.
    split; [tauto|]. apply gregorian_valid_iff. tauto.
  - intros e E. exact (greg_to_jdn_Raise _ _ _ _ Fy Fm Fd E).
Qed.

Lemma greg_to_jdn_error_witness :
  _greg_to_jdn 0 12 31 = Raise exn_invalid_date
  <-> ~ (1 <= 0 <= 9999 /\ gregorian_valid 0 12 31 = true).
Proof.
  apply (proj1 (greg_to_jdn_error 0 12 31 ltac:(unfold fits_int; lia)
                  ltac:(unfold fits_int; lia) ltac:(unfold fits_int; lia))).
Defined.
